(** * Magnetic flux density plotter ([b_plotter.py]): model and properties

    The program evaluates a closed formula for the on-axis flux density of
    two opposed cylindrical magnets, either at one point (scalar arguments)
    or over a whole numpy array, and zeroes the samples that lie past the
    magnet face.

    The evaluator [calc_B] is written once, over an interface of float
    arithmetic ([Arith]), and read at two carriers:

    - [Binary64]: IEEE 754 double precision, as Python floats and numpy's
      float64 compute, through the executable specification [SpecFloat];
    - [Exact]: real numbers with one extra not-a-number value, which is what
      the formula means when no operation rounds.

    Python's dynamic types are kept: a scalar argument is a built-in float or
    a numpy float64, an array is an [ndarray], and the operators dispatch on
    the operands as the interpreter does.  Exceptions are values of an error
    monad, so the [try]/[except TypeError] of the masking step is modelled
    as written. *)

From Stdlib Require Import ZArith List Bool Lia.
From Stdlib Require Strings.String.
Import String.StringSyntax.
Delimit Scope string_scope with string.
From Stdlib Require Import Reals Lra.
From Stdlib Require Import SpecFloat.
Import ListNotations.

Set Implicit Arguments.

(* ================================================================== *)
(** ** Exceptions *)

Inductive exn : Type :=
| TypeError
| OverflowError
| ZeroDivisionError
| ValueError
| IndexError.

Inductive result (A : Type) : Type :=
| Return (a : A)
| Raise (e : exn).

Arguments Return {A} a.
Arguments Raise {A} e.

Definition bind {A B : Type} (m : result A) (k : A -> result B) : result B :=
  match m with
  | Return a => k a
  | Raise e => Raise e
  end.

Notation "x <- m ;; k" := (bind m (fun x => k))
  (at level 61, m at next level, right associativity).

(** [try m except e: h] *)
Definition try_except {A : Type} (m : result A) (e : exn) (h : result A)
  : result A :=
  match m with
  | Return a => Return a
  | Raise e' =>
      match e, e' with
      | TypeError, TypeError
      | OverflowError, OverflowError
      | ZeroDivisionError, ZeroDivisionError
      | ValueError, ValueError
      | IndexError, IndexError => h
      | _, _ => Raise e'
      end
  end.

(* ================================================================== *)
(** ** The arithmetic interface *)

Class Arith (F : Type) : Type := {
  fadd : F -> F -> F;
  fsub : F -> F -> F;
  fmul : F -> F -> F;
  fdiv : F -> F -> F;
  fsqrt : F -> F;
  fopp : F -> F;
  (** comparisons; false whenever an operand is not a number *)
  fgtb : F -> F -> bool;
  fleb : F -> F -> bool;
  feqb : F -> F -> bool;
  (** [float(n)] for an integer literal [n] *)
  of_Z : Z -> F;
  (** [numpy.nan] *)
  nan : F;
  is_nan : F -> bool;
  (** [math.isfinite] *)
  is_finite : F -> bool
}.

(** What the generic proofs use about a carrier. *)
Class ArithLaws (F : Type) `{Arith F} : Prop := {
  lit_1000_nonzero : feqb (of_Z 1000) (of_Z 0) = false;
  lit_2_nonzero : feqb (of_Z 2) (of_Z 0) = false;
  nan_is_nan : is_nan nan = true;
  fgtb_of_fleb : forall x y, fleb x y = true -> fgtb x y = false;
  fgtb_of_feqb : forall x y, feqb x y = true -> fgtb x y = false;
  fdiv_fopp_l : forall x y, fdiv (fopp x) y = fopp (fdiv x y);
  fadd_fopp_r : forall x y, fadd x (fopp y) = fsub x y;
  fsub_fopp_r : forall x y, fsub x (fopp y) = fadd x y;
  fadd_comm : forall x y, fadd x y = fadd y x
}.

(* ================================================================== *)
(** ** IEEE 754 binary64 *)

Module Binary64.

Definition prec : Z := 53.
Definition emax : Z := 1024.

Definition float : Type := spec_float.

(** [float(n)]: the integer rounded to nearest. *)
Definition b64_of_Z (n : Z) : float := binary_normalize prec emax n 0 false.

Definition b64_is_nan (x : float) : bool :=
  match x with S754_nan => true | _ => false end.

Definition b64_is_finite (x : float) : bool :=
  match x with
  | S754_zero _ | S754_finite _ _ _ => true
  | S754_infinity _ | S754_nan => false
  end.

(** Python's [x > y] is [y < x]. *)
Definition b64_gtb (x y : float) : bool := SFltb y x.

#[export] Instance arith : Arith float := {|
  fadd := SFadd prec emax;
  fsub := SFsub prec emax;
  fmul := SFmul prec emax;
  fdiv := SFdiv prec emax;
  fsqrt := SFsqrt prec emax;
  fopp := SFopp;
  fgtb := b64_gtb;
  fleb := SFleb;
  feqb := SFeqb;
  of_Z := b64_of_Z;
  nan := S754_nan;
  is_nan := b64_is_nan;
  is_finite := b64_is_finite
|}.

(** The decimal literal [n / 10^k] as Python's parser reads it, rounded to
    nearest: both integers are represented exactly and the division rounds
    their quotient correctly. *)
Definition decimal (n : Z) (k : nat) : float :=
  SFdiv prec emax (b64_of_Z n) (b64_of_Z (10 ^ Z.of_nat k)).

End Binary64.

(* ================================================================== *)
(** ** Exact arithmetic: the reals and not-a-number *)

Module Exact.

(** There is no infinity here: a quotient by zero is not a real number and
    is [XNan].  (In [calc_B] a divisor is zero only in [0/0], which is NaN in
    IEEE arithmetic as well.) *)
Inductive xreal : Type :=
| XNan
| XReal (r : R).

Definition lift2 (f : R -> R -> R) (x y : xreal) : xreal :=
  match x, y with
  | XReal a, XReal b => XReal (f a b)
  | _, _ => XNan
  end.

Definition xdiv (x y : xreal) : xreal :=
  match x, y with
  | XReal a, XReal b => if Req_dec_T b 0 then XNan else XReal (a / b)
  | _, _ => XNan
  end.

Definition xsqrt (x : xreal) : xreal :=
  match x with
  | XReal a => if Rlt_dec a 0 then XNan else XReal (R_sqrt.sqrt a)
  | XNan => XNan
  end.

Definition xopp (x : xreal) : xreal :=
  match x with
  | XReal a => XReal (- a)
  | XNan => XNan
  end.

Definition xgtb (x y : xreal) : bool :=
  match x, y with
  | XReal a, XReal b => if Rlt_dec b a then true else false
  | _, _ => false
  end.

Definition xleb (x y : xreal) : bool :=
  match x, y with
  | XReal a, XReal b => if Rle_dec a b then true else false
  | _, _ => false
  end.

Definition xeqb (x y : xreal) : bool :=
  match x, y with
  | XReal a, XReal b => if Req_dec_T a b then true else false
  | _, _ => false
  end.

Definition x_is_nan (x : xreal) : bool :=
  match x with XNan => true | XReal _ => false end.

Definition x_is_finite (x : xreal) : bool :=
  match x with XNan => false | XReal _ => true end.

#[export] Instance arith : Arith xreal := {|
  fadd := lift2 Rplus;
  fsub := lift2 Rminus;
  fmul := lift2 Rmult;
  fdiv := xdiv;
  fsqrt := xsqrt;
  fopp := xopp;
  fgtb := xgtb;
  fleb := xleb;
  feqb := xeqb;
  of_Z := fun n => XReal (IZR n);
  nan := XNan;
  is_nan := x_is_nan;
  is_finite := x_is_finite
|}.

(** The formula over the reals, where it is defined ([r <> 0]). *)
Definition ratio (r x : R) : R := (x / R_sqrt.sqrt (r * r + x * x))%R.

Definition B_real (Br r t d p : R) : R :=
  ((Br / 2) * (ratio r (t + (d + p)) - ratio r (d + p))
   + (Br / 2) * (ratio r (t + (d - p)) - ratio r (d - p)))%R.

End Exact.

(* ================================================================== *)
(** ** Python and numpy values *)

Section Values.

Context {F : Type} `{Arith F}.

(** A numpy array of float64: its shape and its elements in row-major
    order. *)
Record ndarray : Type := mk_ndarray {
  shape : list nat;
  data : list F
}.

(** What the arguments and intermediate results of [calc_B] can be: the
    built-in [float], numpy's scalar [float64], an array.  (An [int]
    argument is read as the float it converts to.) *)
Inductive value : Type :=
| PyFloat (x : F)
| NpFloat (x : F)
| NdArray (a : ndarray).

(** What [calc_B] returns: one of the above, or the [int] of [return 0]. *)
Inductive retval : Type :=
| PyInt (n : Z)
| Val (v : value).

(** The result of a comparison: a single truth value ([bool] or
    [numpy.bool_]) or an array of them. *)
Inductive mask : Type :=
| MBool (b : bool)
| MArray (sh : list nat) (bits : list bool).

Definition shape_eqb (s1 s2 : list nat) : bool :=
  if list_eq_dec Nat.eq_dec s1 s2 then true else false.

Definition map_array (f : F -> F) (a : ndarray) : ndarray :=
  {| shape := shape a; data := map f (data a) |}.

Fixpoint zip_with {A B C : Type} (f : A -> B -> C) (l1 : list A) (l2 : list B)
  : list C :=
  match l1, l2 with
  | x :: l1', y :: l2' => f x y :: zip_with f l1' l2'
  | _, _ => []
  end.

(** Two arrays combine elementwise when their shapes are equal.  numpy also
    stretches axes of length one; the program never relies on it (the grids
    come out of [meshgrid] with one shape), so every other pair of shapes
    is refused here, as numpy refuses incompatible ones. *)
Definition zip_array {C : Type} (f : F -> F -> C) (a b : ndarray)
  : result (list nat * list C) :=
  if shape_eqb (shape a) (shape b)
  then Return (shape a, zip_with f (data a) (data b))
  else Raise ValueError.

(** *** Arithmetic operators *)

Inductive binop : Type := Add | Sub | Mul | Div.

Definition apply_binop (op : binop) : F -> F -> F :=
  match op with
  | Add => fadd
  | Sub => fsub
  | Mul => fmul
  | Div => fdiv
  end.

(** The operators of the built-in [float]: only the division can raise. *)
Definition py_float_binop (op : binop) (x y : F) : result F :=
  match op with
  | Div => if feqb y (of_Z 0) then Raise ZeroDivisionError
           else Return (fdiv x y)
  | _ => Return (apply_binop op x y)
  end.

(** [u op v].  Two built-in floats stay with the interpreter; as soon as a
    numpy operand is present numpy computes, in IEEE arithmetic and without
    raising (it only warns). *)
Definition binary (op : binop) (u v : value) : result value :=
  match u, v with
  | PyFloat x, PyFloat y => r <- py_float_binop op x y ;; Return (PyFloat r)
  | PyFloat x, NpFloat y
  | NpFloat x, PyFloat y
  | NpFloat x, NpFloat y => Return (NpFloat (apply_binop op x y))
  | PyFloat x, NdArray b
  | NpFloat x, NdArray b => Return (NdArray (map_array (apply_binop op x) b))
  | NdArray a, PyFloat y
  | NdArray a, NpFloat y =>
      Return (NdArray (map_array (fun x => apply_binop op x y) a))
  | NdArray a, NdArray b =>
      r <- zip_array (apply_binop op) a b ;;
      Return (NdArray {| shape := fst r; data := snd r |})
  end.

(** [v ** 2].  The square is the correctly rounded product.  The built-in
    float raises [OverflowError] when the square of a finite number
    overflows; numpy returns the infinity. *)
Definition pow2 (v : value) : result value :=
  match v with
  | PyFloat x =>
      if is_finite x && negb (is_finite (fmul x x))
      then Raise OverflowError
      else Return (PyFloat (fmul x x))
  | NpFloat x => Return (NpFloat (fmul x x))
  | NdArray a => Return (NdArray (map_array (fun x => fmul x x) a))
  end.

(** [np.sqrt(v)]: always a numpy value. *)
Definition np_sqrt (v : value) : result value :=
  match v with
  | PyFloat x | NpFloat x => Return (NpFloat (fsqrt x))
  | NdArray a => Return (NdArray (map_array fsqrt a))
  end.

(** [u > v] *)
Definition greater (u v : value) : result mask :=
  match u, v with
  | PyFloat x, PyFloat y
  | PyFloat x, NpFloat y
  | NpFloat x, PyFloat y
  | NpFloat x, NpFloat y => Return (MBool (fgtb x y))
  | PyFloat x, NdArray b
  | NpFloat x, NdArray b => Return (MArray (shape b) (map (fgtb x) (data b)))
  | NdArray a, PyFloat y
  | NdArray a, NpFloat y =>
      Return (MArray (shape a) (map (fun x => fgtb x y) (data a)))
  | NdArray a, NdArray b =>
      r <- zip_array fgtb a b ;; Return (MArray (fst r) (snd r))
  end.

(** The truth value an [if] takes of a comparison result. *)
Definition truth (m : mask) : result bool :=
  match m with
  | MBool b => Return b
  | MArray _ [b] => Return b
  | MArray _ _ => Raise ValueError
  end.

(** [B[m] = c], returning the updated [B].  A scalar supports no item
    assignment: that is the [TypeError] the masking step of [calc_B] relies
    on. *)
Definition setitem (B : value) (m : mask) (c : F) : result value :=
  match B with
  | PyFloat _ | NpFloat _ => Raise TypeError
  | NdArray a =>
      match m with
      | MBool b =>
          Return (NdArray (if b then map_array (fun _ => c) a else a))
      | MArray sh bits =>
          if shape_eqb sh (shape a)
          then Return (NdArray
                 {| shape := shape a;
                    data := zip_with (fun (b : bool) x => if b then c else x)
                              bits (data a) |})
          else Raise IndexError
      end
  end.

End Values.

Arguments ndarray F : clear implicits.
Arguments value F : clear implicits.
Arguments retval F : clear implicits.

(* ================================================================== *)
(** ** The evaluator *)

Declare Scope py_scope.
Delimit Scope py_scope with py.

Section Evaluator.

Context {F : Type} `{Arith F}.

(** Operators on expressions: the left operand is evaluated first, and an
    exception of an operand is the exception of the whole. *)
Definition lift_binary (op : binop) (a b : result (value F))
  : result (value F) :=
  x <- a ;; y <- b ;; binary op x y.

Definition lift_unary (f : value F -> result (value F)) (a : result (value F))
  : result (value F) :=
  x <- a ;; f x.

Notation "a + b" := (lift_binary Add a b) : py_scope.
Notation "a - b" := (lift_binary Sub a b) : py_scope.
Notation "a * b" := (lift_binary Mul a b) : py_scope.
Notation "a / b" := (lift_binary Div a b) : py_scope.
Notation "a '**2'" := (lift_unary pow2 a) (at level 1) : py_scope.
Notation "'np.sqrt' a" := (lift_unary np_sqrt a) (at level 35) : py_scope.

(** An integer literal in a float operation. *)
Definition lit (n : Z) : result (value F) := Return (PyFloat (of_Z n)).

(** [calc_B(dist, pos, B_rem, mag_radius, mag_thick, mag_shape)].  The magnet
    parameters are built-in floats, as the constants of the module are;
    [dist] and [pos] are scalars or arrays. *)
Definition calc_B (dist pos : value F) (B_rem mag_radius mag_thick : F)
    (mag_shape : String.string) : result (retval F) :=
  (* convert inputs in mm to m *)
  dist_m <- (Return dist / lit 1000)%py ;;
  pos_m <- (Return pos / lit 1000)%py ;;
  mag_radius_m <- (Return (PyFloat mag_radius) / lit 1000)%py ;;
  mag_thick_m <- (Return (PyFloat mag_thick) / lit 1000)%py ;;
  let B_rem := Return (PyFloat B_rem) in
  let dist_m := Return dist_m in
  let pos_m := Return pos_m in
  let mag_radius_m := Return mag_radius_m in
  let mag_thick_m := Return mag_thick_m in
  if String.eqb mag_shape "cyl" then
    B <- ((B_rem / lit 2)
            * ((mag_thick_m + (dist_m + pos_m))
                 / np.sqrt (mag_radius_m **2
                            + (mag_thick_m + (dist_m + pos_m)) **2)
               - (dist_m + pos_m)
                 / np.sqrt (mag_radius_m **2 + (dist_m + pos_m) **2))
          + (B_rem / lit 2)
            * ((mag_thick_m + (dist_m - pos_m))
                 / np.sqrt (mag_radius_m **2
                            + (mag_thick_m + (dist_m - pos_m)) **2)
               - (dist_m - pos_m)
                 / np.sqrt (mag_radius_m **2 + (dist_m - pos_m) **2)))%py ;;
    (* set all flux density values where the calculation position is
       behind or inside the magnet (outside of envelope) to 0 *)
    try_except
      (m <- greater pos dist ;;
       B' <- setitem B m (of_Z 0) ;;
       Return (Val B'))
      TypeError
      (* pos not iterable *)
      (m <- greater pos dist ;;
       b <- truth m ;;
       if b then Return (PyInt 0) else Return (Val B))
  else if String.eqb mag_shape "block" then Return (Val (PyFloat nan))
  else if String.eqb mag_shape "ring" then Return (Val (PyFloat nan))
  else Return (Val (PyFloat nan)).

End Evaluator.

Arguments calc_B {F _} dist pos B_rem mag_radius mag_thick mag_shape%_string.

(* ================================================================== *)
(** ** The formula of the specification, and what one sample receives *)

Declare Scope f_scope.
Delimit Scope f_scope with f.

Section Pointwise.

Context {F : Type} `{Arith F}.

Notation "a + b" := (fadd a b) : f_scope.
Notation "a - b" := (fsub a b) : f_scope.
Notation "a * b" := (fmul a b) : f_scope.
Notation "a / b" := (fdiv a b) : f_scope.
Notation "a '^2'" := (fmul a a) (at level 1) : f_scope.

(** The closed form of the specification, in SI units:
    [B(d,p) = (Br/2) * [(t+(d+p)) / sqrt(r^2 + (t+(d+p))^2)
                         - (d+p) / sqrt(r^2 + (d+p)^2)]
            + (Br/2) * [(t+(d-p)) / sqrt(r^2 + (t+(d-p))^2)
                         - (d-p) / sqrt(r^2 + (d-p)^2)]]. *)
Definition B_formula (Br r t d p : F) : F :=
  ((Br / of_Z 2)
     * ((t + (d + p)) / fsqrt (r ^2 + (t + (d + p)) ^2)
        - (d + p) / fsqrt (r ^2 + (d + p) ^2))
   + (Br / of_Z 2)
     * ((t + (d - p)) / fsqrt (r ^2 + (t + (d - p)) ^2)
        - (d - p) / fsqrt (r ^2 + (d - p) ^2)))%f.

(** Millimetres to metres. *)
Definition to_m (x : F) : F := (x / of_Z 1000)%f.

(** The formula at inputs in millimetres. *)
Definition raw_B (dist pos B_rem mag_radius mag_thick : F) : F :=
  B_formula B_rem (to_m mag_radius) (to_m mag_thick) (to_m dist) (to_m pos).

(** The flux one sample receives: zero past the magnet face. *)
Definition flux_point (B_rem mag_radius mag_thick dist pos : F) : F :=
  if fgtb pos dist then of_Z 0
  else raw_B dist pos B_rem mag_radius mag_thick.

(** The square of a finite number that is not finite any more. *)
Definition sq_overflows (x : F) : bool :=
  is_finite x && negb (is_finite (x ^2)%f).

(** The squares [calc_B] takes of built-in floats when both [dist] and
    [pos] are built-in floats. *)
Definition py_squares_overflow (dist pos mag_thick : F) : bool :=
  let d := to_m dist in
  let p := to_m pos in
  let t := to_m mag_thick in
  (sq_overflows (t + (d + p)) || sq_overflows (d + p)
   || sq_overflows (t + (d - p)) || sq_overflows (d - p))%f.

(** A scalar argument: numpy's [float64] or the built-in [float]. *)
Definition scalar (numpy : bool) (x : F) : value F :=
  if numpy then NpFloat x else PyFloat x.

(** The number a returned scalar stands for. *)
Definition float_of (v : retval F) : option F :=
  match v with
  | PyInt n => Some (of_Z n)
  | Val (PyFloat x) | Val (NpFloat x) => Some x
  | Val (NdArray _) => None
  end.

(** Two array arguments must agree on their shape. *)
Definition compatible (dist pos : value F) : Prop :=
  match dist, pos with
  | NdArray a, NdArray b => shape a = shape b
  | _, _ => True
  end.

(** When [calc_B] raises [OverflowError]: [mag_radius_m] is always a
    built-in float; the other squared operands are built-in floats only if
    both [dist] and [pos] are. *)
Definition raises_overflow (dist pos : value F) (mag_radius mag_thick : F)
  : bool :=
  sq_overflows (to_m mag_radius)
  || match dist, pos with
     | PyFloat d, PyFloat p => py_squares_overflow d p mag_thick
     | _, _ => false
     end.

(** What [calc_B] returns for a cylinder, sample by sample. *)
Definition flux (dist pos : value F) (B_rem mag_radius mag_thick : F)
  : retval F :=
  let point := flux_point B_rem mag_radius mag_thick in
  match dist, pos with
  | (PyFloat d | NpFloat d), (PyFloat p | NpFloat p) =>
      if fgtb p d then PyInt 0
      else Val (NpFloat (raw_B d p B_rem mag_radius mag_thick))
  | (PyFloat d | NpFloat d), NdArray b =>
      Val (NdArray (map_array (fun p => point d p) b))
  | NdArray a, (PyFloat p | NpFloat p) =>
      Val (NdArray (map_array (fun d => point d p) a))
  | NdArray a, NdArray b =>
      Val (NdArray {| shape := shape a;
                      data := zip_with point (data a) (data b) |})
  end.

(** Sample [k] of an argument: a scalar is the same at every index. *)
Definition item (v : value F) (k : nat) : option F :=
  match v with
  | PyFloat x | NpFloat x => Some x
  | NdArray a => nth_error (data a) k
  end.

(** Sample [k] of a returned value. *)
Definition ret_item (v : retval F) (k : nat) : option F :=
  match v with
  | PyInt n => Some (of_Z n)
  | Val v => item v k
  end.

(** [-v] *)
Definition neg (v : value F) : value F :=
  match v with
  | PyFloat x => PyFloat (fopp x)
  | NpFloat x => NpFloat (fopp x)
  | NdArray a => NdArray (map_array fopp a)
  end.


(** The one-dimensional array of the elements of a list. *)
Definition array1 (l : list F) : ndarray F :=
  {| shape := [length l]; data := l |}.

(** [numpy.full_like(a, x)]: the array of the shape of [a] filled with
    [x]. *)
Definition full_like (a : ndarray F) (x : F) : ndarray F :=
  {| shape := shape a; data := repeat x (length (data a)) |}.

(** Whether an argument is a built-in float. *)
Definition is_builtin (v : value F) : bool :=
  match v with
  | PyFloat _ => true
  | NpFloat _ | NdArray _ => false
  end.

End Pointwise.

(* ================================================================== *)
(** ** The driver: sampling grid and the one evaluation *)

Section Driver.

Context {F : Type} `{Arith F}.

(** [y[-1] = v] *)
Fixpoint set_last (y : list F) (v : F) : list F :=
  match y with
  | [] => []
  | [_] => [v]
  | x :: y' => x :: set_last y' v
  end.

(** [numpy.linspace(start, stop, num)] with the default [endpoint=True], as
    the library computes it for float endpoints: the indices [0 .. num-1]
    are scaled by the step and shifted by [start], and the last sample is
    then overwritten with [stop].  (A zero step, which subnormal ranges
    produce, makes numpy divide before it multiplies.) *)
Definition linspace (start stop : F) (num : nat) : ndarray F :=
  let div := (num - 1)%nat in
  let delta := fsub stop start in
  let y := map (fun i => of_Z (Z.of_nat i)) (seq 0 num) in
  let y :=
    if (0 <? div)%nat then
      let step := fdiv delta (of_Z (Z.of_nat div)) in
      if feqb step (of_Z 0)
      then map (fun v => fmul (fdiv v (of_Z (Z.of_nat div))) delta) y
      else map (fun v => fmul v step) y
    else map (fun v => fmul v delta) y in
  let y := map (fun v => fadd v start) y in
  let y := if (1 <? num)%nat then set_last y stop else y in
  {| shape := [num]; data := y |}.


(** [numpy.meshgrid(x, y)] of two one-dimensional arrays with the default
    [indexing='xy']: both grids have shape [(len y, len x)]; row [i] of the
    first is [x], row [i] of the second repeats [y[i]]. *)
Definition meshgrid (x y : ndarray F) : ndarray F * ndarray F :=
  let nx := length (data x) in
  let ny := length (data y) in
  ({| shape := [ny; nx]; data := concat (repeat (data x) ny) |},
   {| shape := [ny; nx]; data := flat_map (fun v => repeat v nx) (data y) |}).

(** Element [(i, j)] of a two-dimensional array. *)
Definition item2 (a : ndarray F) (i j : nat) : option F :=
  match shape a with
  | [n; m] =>
      if (i <? n)%nat && (j <? m)%nat then nth_error (data a) (i * m + j)
      else None
  | _ => None
  end.


(** One recorded invocation of the evaluator. *)
Record call : Type := mk_call {
  call_dist : value F;
  call_pos : value F;
  call_shape : String.string
}.

(** What the script holds when it reaches the plotting code: the three
    arrays handed to [plot_surface], and the evaluator calls made. *)
Record plot_input : Type := mk_plot_input {
  plot_dist : ndarray F;
  plot_pos : ndarray F;
  plot_B : result (retval F);
  evaluator_calls : list call
}.

(** [calc_B] with its call recorded; [mag_shape] takes its default. *)
Definition logged_calc_B (log : list call) (dist pos : value F)
    (B_rem mag_radius mag_thick : F) : list call * result (retval F) :=
  (log ++ [mk_call dist pos "cyl"%string],
   calc_B dist pos B_rem mag_radius mag_thick "cyl"%string).

(** The sampled axis: [np.linspace] over [dist_range] with 100 samples. *)
Definition axis (dist_range : F * F) : ndarray F :=
  linspace (fst dist_range) (snd dist_range) 100.

(** The statements of the module between [# CALCULATIONS #] and
    [# PLOT #]. *)
Definition driver (dist_range : F * F) (B_rem mag_radius mag_thick : F)
  : plot_input :=
  (* generate X values to plot *)
  let dist := axis dist_range in
  (* generate plotting grid *)
  let '(dist, pos) := meshgrid dist dist in
  (* calculate B values *)
  let '(log, B) :=
    logged_calc_B [] (NdArray dist) (NdArray pos) B_rem mag_radius mag_thick in
  {| plot_dist := dist; plot_pos := pos; plot_B := B;
     evaluator_calls := log |}.

End Driver.

(** The constants of the module. *)
Module Script.

Import Binary64.

(* flux density remanence *)
Definition B_rem : float := decimal 121 2.
(* magnet radius (mm) *)
Definition mag_radius : float := decimal 762 2.
(* magnet thickness (mm) *)
Definition mag_thick : float := decimal 2794 3.
(* midpoint distance between magnets - design envelope [min, max] *)
Definition dist_range : float * float := (decimal 0 2, decimal 2500 2).

Definition run : plot_input := driver dist_range B_rem mag_radius mag_thick.

(** The sign a sample should have: the masking zero past the face, a
    strictly positive flux elsewhere. *)
Definition sample_sign_ok (d p b : float) : bool :=
  if fgtb p d
  then match b with S754_zero false => true | _ => false end
  else fgtb b (of_Z 0).

(** Every sample of the plotted flux array has that sign. *)
Definition grid_sign_ok (out : plot_input) : bool :=
  match plot_B out with
  | Return (Val (NdArray a)) =>
      (length (data a) =? 100 * 100)%nat
      && forallb (fun '(d, p, b) => sample_sign_ok d p b)
           (combine (combine (data (plot_dist out)) (data (plot_pos out)))
              (data a))
  | _ => false
  end.

End Script.



(** A zero of either sign, and a zero or NaN. *)
Definition is_zero (x : Binary64.float) : bool :=
  match x with S754_zero _ => true | _ => false end.

Definition zero_or_nan (x : Binary64.float) : bool :=
  match x with S754_zero _ | S754_nan => true | _ => false end.

(* ================================================================== *)
(** * Properties *)

(** ** The evaluator, generically *)

Ltac step_eval :=
  cbv beta iota zeta delta
    [bind binary pow2 np_sqrt map_array py_float_binop apply_binop greater
     setitem try_except truth shape data fst snd String.eqb Ascii.eqb
     Bool.eqb orb].

Ltac split_overflow :=
  repeat match goal with
  | |- context [is_finite ?x && negb (is_finite (fmul ?x ?x))] =>
      destruct (is_finite x && negb (is_finite (fmul x x))) eqn:?; step_eval
  end.

Section EvaluatorFacts.

Context {F : Type} `{ArithLaws F}.

Lemma shape_eqb_refl (s : list nat) : shape_eqb s s = true.
Proof. unfold shape_eqb. destruct (list_eq_dec Nat.eq_dec s s); congruence. Qed.

Lemma zip_array_same {C : Type} (f : F -> F -> C) (sh : list nat)
    (l1 l2 : list F) :
  zip_array f {| shape := sh; data := l1 |} {| shape := sh; data := l2 |}
  = Return (sh, zip_with f l1 l2).
Proof. unfold zip_array. simpl. now rewrite shape_eqb_refl. Qed.

Lemma to_m_returns (v : value F) :
  exists w, binary Div v (PyFloat (of_Z 1000)) = Return w.
Proof.
  destruct v; simpl; try (eexists; reflexivity).
  rewrite lit_1000_nonzero. simpl. eexists; reflexivity.
Qed.

Lemma calc_B_unsupported (dist pos : value F) (B_rem mag_radius mag_thick : F)
    (mag_shape : String.string) :
  mag_shape <> "cyl"%string ->
  calc_B dist pos B_rem mag_radius mag_thick mag_shape
  = Return (Val (PyFloat nan)).
Proof.
  intros Hs. unfold calc_B, lift_binary, lit. simpl.
  destruct (to_m_returns dist) as [d ->].
  destruct (to_m_returns pos) as [p ->]. simpl.
  rewrite lit_1000_nonzero. simpl.
  apply String.eqb_neq in Hs. rewrite Hs.
  destruct (String.eqb mag_shape "block"), (String.eqb mag_shape "ring");
    reflexivity.
Qed.

Lemma calc_B_cyl (dist pos : value F) (B_rem mag_radius mag_thick : F) :
  compatible dist pos ->
  calc_B dist pos B_rem mag_radius mag_thick "cyl"
  = if raises_overflow dist pos mag_radius mag_thick
    then Raise OverflowError
    else Return (flux dist pos B_rem mag_radius mag_thick).
Proof.
  intros Hc.
  unfold calc_B, lift_binary, lift_unary, lit, raises_overflow,
    py_squares_overflow, sq_overflows, flux, flux_point, raw_B, B_formula,
    to_m.
  destruct dist as [d|d|[sh da]], pos as [p|p|[sh' db]]; simpl in Hc;
    try subst sh'.
  all: step_eval.
  all: rewrite ?lit_1000_nonzero, ?lit_2_nonzero; step_eval.
  all: split_overflow; step_eval; try reflexivity.
  all: try (destruct (fgtb p d); reflexivity).
  all: repeat (rewrite ?zip_array_same, ?shape_eqb_refl; step_eval).
  all: do 4 f_equal.
  1-4: (induction db as [|y db IH] || induction da as [|x da IH]);
         simpl; [reflexivity | f_equal; exact IH].
  revert db; induction da as [|x da IH]; intros [|y db]; simpl;
    try reflexivity.
  f_equal. apply IH.
Qed.

Lemma nth_error_zip_with {A B C : Type} (f : A -> B -> C) (l1 : list A)
    (l2 : list B) (k : nat) (a : A) (b : B) :
  nth_error l1 k = Some a -> nth_error l2 k = Some b ->
  nth_error (zip_with f l1 l2) k = Some (f a b).
Proof.
  revert l2 k. induction l1 as [|x l1 IH]; intros [|y l2] [|k]; simpl;
    try discriminate.
  - intros [= ->] [= ->]. reflexivity.
  - apply IH.
Qed.

Lemma length_zip_with {A B C : Type} (f : A -> B -> C) (l1 : list A)
    (l2 : list B) :
  length (zip_with f l1 l2) = Nat.min (length l1) (length l2).
Proof.
  revert l2. induction l1 as [|x l1 IH]; intros [|y l2]; simpl; auto.
Qed.

(** Every sample of the value [flux] describes is [flux_point] of the
    corresponding samples of the arguments. *)
Lemma ret_item_flux (dist pos : value F) (B_rem mag_radius mag_thick : F)
    (k : nat) (d p : F) :
  item dist k = Some d -> item pos k = Some p ->
  ret_item (flux dist pos B_rem mag_radius mag_thick) k
  = Some (flux_point B_rem mag_radius mag_thick d p).
Proof.
  unfold flux, flux_point.
  destruct dist as [x|x|a], pos as [y|y|b]; simpl; intros Hd Hp.
  all: try (injection Hd as ->); try (injection Hp as ->).
  all: try (destruct (fgtb p d); reflexivity).
  all: try (now rewrite (map_nth_error _ _ _ Hp)).
  all: try (now rewrite (map_nth_error _ _ _ Hd)).
  now rewrite (nth_error_zip_with _ _ _ _ Hd Hp).
Qed.

(** The evaluator for a cylinder, sample by sample: the call returns unless
    a square of built-in floats overflows, and sample [k] of what it
    returns is [flux_point] at sample [k] of the arguments. *)
Lemma calc_B_items (dist pos : value F) (B_rem mag_radius mag_thick : F) :
  compatible dist pos ->
  match calc_B dist pos B_rem mag_radius mag_thick "cyl" with
  | Return res =>
      forall k d p, item dist k = Some d -> item pos k = Some p ->
        ret_item res k = Some (flux_point B_rem mag_radius mag_thick d p)
  | Raise e =>
      e = OverflowError
      /\ raises_overflow dist pos mag_radius mag_thick = true
  end.
Proof.
  intros Hc. rewrite (calc_B_cyl _ _ _ _ _ Hc).
  destruct (raises_overflow dist pos mag_radius mag_thick).
  - split; reflexivity.
  - intros k d p. apply ret_item_flux.
Qed.

(** *** Symmetry in the sign of the position *)

Lemma raw_B_opp (d p B_rem mag_radius mag_thick : F) :
  raw_B d (fopp p) B_rem mag_radius mag_thick
  = raw_B d p B_rem mag_radius mag_thick.
Proof.
  unfold raw_B, B_formula, to_m.
  rewrite fdiv_fopp_l, !fadd_fopp_r, !fsub_fopp_r. apply fadd_comm.
Qed.

Lemma py_squares_overflow_opp (d p mag_thick : F) :
  py_squares_overflow d (fopp p) mag_thick = py_squares_overflow d p mag_thick.
Proof.
  unfold py_squares_overflow, to_m.
  rewrite fdiv_fopp_l, !fadd_fopp_r, !fsub_fopp_r.
  repeat match goal with |- context [sq_overflows ?x] =>
    destruct (sq_overflows x) end; reflexivity.
Qed.

Lemma flux_point_opp (B_rem mag_radius mag_thick d p : F) :
  fgtb (fopp p) d = fgtb p d ->
  flux_point B_rem mag_radius mag_thick d (fopp p)
  = flux_point B_rem mag_radius mag_thick d p.
Proof. unfold flux_point. intros ->. now rewrite raw_B_opp. Qed.

Lemma zip_with_map_r_ext {A B C : Type} (f : A -> B -> C) (g : B -> B)
    (l1 : list A) (l2 : list B) :
  (forall k a b, nth_error l1 k = Some a -> nth_error l2 k = Some b ->
                 f a (g b) = f a b) ->
  zip_with f l1 (map g l2) = zip_with f l1 l2.
Proof.
  revert l2. induction l1 as [|x l1 IH]; intros [|y l2] Hk; simpl;
    try reflexivity.
  f_equal.
  - exact (Hk 0%nat x y eq_refl eq_refl).
  - apply IH. intros k a b. exact (Hk (S k) a b).
Qed.

Lemma map_ext_nth {A B : Type} (f g : A -> B) (l : list A) :
  (forall k a, nth_error l k = Some a -> f a = g a) -> map f l = map g l.
Proof.
  intros Hk. apply map_ext_in. intros a Ha.
  destruct (In_nth_error _ _ Ha) as [k Hk']. exact (Hk k a Hk').
Qed.

(** Negating the position leaves the result unchanged when, at every
    sample, [pos] and [-pos] fall on the same side of the mask. *)
Lemma calc_B_neg_pos (dist pos : value F) (B_rem mag_radius mag_thick : F) :
  compatible dist pos ->
  (forall k d p, item dist k = Some d -> item pos k = Some p ->
                 fgtb (fopp p) d = fgtb p d) ->
  calc_B dist (neg pos) B_rem mag_radius mag_thick "cyl"
  = calc_B dist pos B_rem mag_radius mag_thick "cyl".
Proof.
  intros Hc Hside.
  assert (Hc' : compatible dist (neg pos))
    by (destruct dist, pos; simpl in *; auto).
  rewrite (calc_B_cyl _ _ B_rem mag_radius mag_thick Hc).
  rewrite (calc_B_cyl _ _ B_rem mag_radius mag_thick Hc').
  assert (Hov : raises_overflow dist (neg pos) mag_radius mag_thick
                = raises_overflow dist pos mag_radius mag_thick).
  { unfold raises_overflow. destruct dist, pos; simpl; try reflexivity.
    now rewrite py_squares_overflow_opp. }
  rewrite Hov. destruct (raises_overflow dist pos mag_radius mag_thick);
    [reflexivity|].
  f_equal. unfold flux.
  destruct dist as [d|d|a], pos as [p|p|b]; simpl in *.
  1,2,4,5: rewrite (Hside 0%nat d p eq_refl eq_refl); now rewrite raw_B_opp.
  1,2: do 2 f_equal; unfold map_array; simpl; f_equal; rewrite map_map;
       apply map_ext_nth; intros k p Hp; apply flux_point_opp;
       now apply (Hside k d p).
  1,2: do 2 f_equal; unfold map_array; simpl; f_equal;
       apply map_ext_nth; intros k d Hd; apply flux_point_opp;
       now apply (Hside k d p).
  do 3 f_equal. apply zip_with_map_r_ext. intros k d p Hd Hp.
  apply flux_point_opp. now apply (Hside k d p).
Qed.

End EvaluatorFacts.

(* ================================================================== *)
(** ** Grids *)

Section GridFacts.

Context {F : Type} `{ArithLaws F}.

Lemma nth_error_concat_repeat {A : Type} (l : list A) (n i j : nat) :
  (i < n)%nat -> (j < length l)%nat ->
  nth_error (concat (repeat l n)) (i * length l + j) = nth_error l j.
Proof.
  revert i. induction n as [|n IH]; intros i Hi Hj; [lia|].
  simpl. destruct i as [|i].
  - simpl. now rewrite nth_error_app1.
  - rewrite nth_error_app2 by (simpl; lia).
    replace (S i * length l + j - length l)%nat with (i * length l + j)%nat
      by (simpl; lia).
    apply IH; lia.
Qed.

Lemma nth_error_flat_map_repeat {A : Type} (l : list A) (m i j : nat) :
  (j < m)%nat ->
  nth_error (flat_map (fun v => repeat v m) l) (i * m + j) = nth_error l i.
Proof.
  intros Hj. revert i. induction l as [|a l IH]; intros i.
  - simpl. now destruct (i * m + j)%nat, i.
  - simpl. destruct i as [|i].
    + simpl. rewrite nth_error_app1 by (rewrite repeat_length; lia).
      now apply nth_error_repeat.
    + rewrite nth_error_app2 by (rewrite repeat_length; simpl; lia).
      rewrite repeat_length.
      replace (S i * m + j - m)%nat with (i * m + j)%nat by (simpl; lia).
      apply IH.
Qed.

(** [meshgrid(x, y)[0][i, j] = x[j]] *)
Lemma item2_meshgrid_fst (x y : ndarray F) (i j : nat) :
  (i < length (data y))%nat ->
  item2 (fst (meshgrid x y)) i j = nth_error (data x) j.
Proof.
  intros Hi. unfold item2, meshgrid. simpl.
  apply Nat.ltb_lt in Hi. rewrite Hi. simpl.
  destruct (j <? length (data x))%nat eqn:Hj.
  - apply Nat.ltb_lt in Hi, Hj. now apply nth_error_concat_repeat.
  - apply Nat.ltb_ge in Hj. symmetry. now apply nth_error_None.
Qed.

(** [meshgrid(x, y)[1][i, j] = y[i]] *)
Lemma item2_meshgrid_snd (x y : ndarray F) (i j : nat) :
  (j < length (data x))%nat ->
  item2 (snd (meshgrid x y)) i j = nth_error (data y) i.
Proof.
  intros Hj. unfold item2, meshgrid. simpl.
  destruct (i <? length (data y))%nat eqn:Hi; simpl.
  - apply Nat.ltb_lt in Hj. rewrite Hj.
    apply Nat.ltb_lt in Hj. now apply nth_error_flat_map_repeat.
  - apply Nat.ltb_ge in Hi. symmetry. now apply nth_error_None.
Qed.

Lemma item2_item (a : ndarray F) (i j : nat) (x : F) :
  item2 a i j = Some x ->
  exists n m, shape a = [n; m] /\ (i < n)%nat /\ (j < m)%nat
              /\ item (NdArray a) (i * m + j) = Some x.
Proof.
  unfold item2. destruct (shape a) as [|n [|m [|]]]; try discriminate.
  destruct (i <? n)%nat eqn:Hi; try discriminate.
  destruct (j <? m)%nat eqn:Hj; try discriminate.
  simpl. intros Hx. exists n, m.
  apply Nat.ltb_lt in Hi, Hj. auto.
Qed.

(** Element [(i, j)] of the evaluation over two grids of one shape is the
    scalar evaluation at the elements [(i, j)] of the grids. *)
Lemma calc_B_item2 (D P : ndarray F) (B_rem mag_radius mag_thick : F)
    (i j : nat) (d p : F) (np_d np_p : bool) :
  shape D = shape P ->
  item2 D i j = Some d -> item2 P i j = Some p ->
  raises_overflow (scalar np_d d) (scalar np_p p) mag_radius mag_thick
  = false ->
  exists Bv v x,
    calc_B (NdArray D) (NdArray P) B_rem mag_radius mag_thick "cyl"
    = Return (Val (NdArray Bv))
    /\ calc_B (scalar np_d d) (scalar np_p p) B_rem mag_radius mag_thick "cyl"
       = Return v
    /\ shape Bv = shape D
    /\ item2 Bv i j = Some x
    /\ float_of v = Some x.
Proof.
  intros Hsh HD HP Hov.
  assert (Hr : sq_overflows (to_m mag_radius) = false).
  { unfold raises_overflow in Hov. now apply orb_false_elim in Hov. }
  rewrite (calc_B_cyl (NdArray D) (NdArray P) B_rem mag_radius mag_thick Hsh).
  rewrite (calc_B_cyl (scalar np_d d) (scalar np_p p) B_rem mag_radius
             mag_thick) by (now destruct np_d, np_p).
  rewrite Hov. unfold raises_overflow at 1. rewrite Hr. simpl.
  do 3 eexists. split; [reflexivity|]. split; [reflexivity|].
  split; [reflexivity|].
  destruct (item2_item _ _ _ HD) as (n & m & HsD & Hi & Hj & HdD).
  destruct (item2_item _ _ _ HP) as (n' & m' & HsP & _ & _ & HdP).
  assert (m' = m) by congruence. subst m'.
  simpl in HdD, HdP.
  split.
  - unfold item2. simpl. rewrite HsD.
    apply Nat.ltb_lt in Hi, Hj. rewrite Hi, Hj. simpl.
    apply (nth_error_zip_with _ _ _ _ HdD HdP).
  - unfold flux_point. destruct np_d, np_p; simpl;
      destruct (fgtb p d); reflexivity.
Qed.

End GridFacts.

(* ================================================================== *)
(** ** The sampling axis *)

Section LinspaceFacts.

Context {F : Type} `{Arith F}.











End LinspaceFacts.

Section DriverFacts.

Context {F : Type} `{ArithLaws F}.



End DriverFacts.

(* ================================================================== *)
(** ** Facts of binary64 arithmetic *)

Module Binary64Facts.

Import Binary64.

Lemma SFcompare_antisym (x y : float) :
  SFcompare y x = option_map CompOpp (SFcompare x y).
Proof.
  destruct x as [sx|sx| |sx mx ex], y as [sy|sy| |sy my ey]; simpl;
    try reflexivity;
    try (destruct sx; reflexivity);
    try (destruct sy; reflexivity);
    try (destruct sx, sy; reflexivity).
  destruct sx, sy; simpl; try reflexivity.
  all: rewrite (Z.compare_antisym ex ey);
       destruct (ex ?= ey)%Z; simpl; try reflexivity.
  all: replace (Pos.compare_cont Eq my mx)
         with (CompOpp (Pos.compare_cont Eq mx my))
         by apply (Pos.compare_cont_antisym mx my Eq);
       destruct (Pos.compare_cont Eq mx my); reflexivity.
Qed.

Lemma gtb_of_leb (x y : float) : SFleb x y = true -> b64_gtb x y = false.
Proof.
  unfold SFleb, b64_gtb, SFltb. rewrite (SFcompare_antisym x y).
  destruct (SFcompare x y) as [[]|]; simpl; congruence.
Qed.

Lemma gtb_of_eqb (x y : float) : SFeqb x y = true -> b64_gtb x y = false.
Proof.
  unfold SFeqb, b64_gtb, SFltb. rewrite (SFcompare_antisym x y).
  destruct (SFcompare x y) as [[]|]; simpl; congruence.
Qed.

(** Rounding works on the magnitude: the sign passes through. *)
Lemma binary_round_aux_opp (s : bool) (m e : Z) (l : location) :
  SFopp (binary_round_aux prec emax s m e l)
  = binary_round_aux prec emax (negb s) m e l.
Proof.
  unfold binary_round_aux.
  destruct (shr_fexp prec emax m e l) as [mrs e'].
  destruct (shr_fexp prec emax _ e' loc_Exact) as [mrs' e''].
  destruct (shr_m mrs'); simpl; try reflexivity.
  destruct (Z.leb _ _); reflexivity.
Qed.

Lemma SFdiv_opp_l (x y : float) :
  SFdiv prec emax (SFopp x) y = SFopp (SFdiv prec emax x y).
Proof.
  destruct x as [sx|sx| |sx mx ex], y as [sy|sy| |sy my ey]; simpl;
    try reflexivity;
    try (now rewrite Bool.negb_xorb_l).
  destruct (SFdiv_core_binary prec emax (Z.pos mx) ex (Z.pos my) ey)
    as [[mz ez] lz].
  now rewrite binary_round_aux_opp, Bool.negb_xorb_l.
Qed.

Lemma SFadd_opp_r (x y : float) :
  SFadd prec emax x (SFopp y) = SFsub prec emax x y.
Proof.
  destruct x as [sx|sx| |sx mx ex], y as [sy|sy| |sy my ey]; simpl;
    try reflexivity;
    destruct sx, sy; reflexivity.
Qed.

Lemma SFsub_opp_r (x y : float) :
  SFsub prec emax x (SFopp y) = SFadd prec emax x y.
Proof.
  destruct x as [sx|sx| |sx mx ex], y as [sy|sy| |sy my ey]; simpl;
    try reflexivity;
    destruct sx, sy; reflexivity.
Qed.

Lemma SFadd_comm (x y : float) : SFadd prec emax x y = SFadd prec emax y x.
Proof.
  destruct x as [sx|sx| |sx mx ex], y as [sy|sy| |sy my ey]; simpl;
    try reflexivity;
    try (destruct sx, sy; reflexivity).
  now rewrite (Z.min_comm ex ey), Z.add_comm.
Qed.






#[export] Instance laws : @ArithLaws float arith.
Proof.
  split.
  - reflexivity.
  - reflexivity.
  - reflexivity.
  - exact gtb_of_leb.
  - exact gtb_of_eqb.
  - exact SFdiv_opp_l.
  - exact SFadd_opp_r.
  - exact SFsub_opp_r.
  - exact SFadd_comm.
Qed.

End Binary64Facts.

(* ================================================================== *)
(** ** The evaluator in binary64 *)

Import Binary64 Binary64Facts.

(** C1.  Masking: whenever a call for a cylinder returns, every sample whose
    position strictly exceeds its distance is exactly zero, whatever the
    formula gives there; this holds for scalar arguments (where the [int] 0
    is returned) and for arrays (mask assignment) alike.  The only calls
    that do not return are those in which the square of a built-in float
    overflows, and they raise [OverflowError]. *)
Theorem calc_B_zero_past_face (dist pos : value float)
    (B_rem mag_radius mag_thick : float) :
  compatible dist pos ->
  match calc_B dist pos B_rem mag_radius mag_thick "cyl" with
  | Return res =>
      forall k d p, item dist k = Some d -> item pos k = Some p ->
        fgtb p d = true ->
        ret_item res k = Some (S754_zero false)
  | Raise e =>
      e = OverflowError
      /\ raises_overflow dist pos mag_radius mag_thick = true
  end.
Proof.
  intros Hc.
  pose proof (calc_B_items dist pos B_rem mag_radius mag_thick Hc) as Hi.
  destruct (calc_B dist pos B_rem mag_radius mag_thick "cyl") as [res|e];
    [|exact Hi].
  intros k d p Hd Hp Hgt. rewrite (Hi k d p Hd Hp).
  unfold flux_point. now rewrite Hgt.
Qed.

Lemma calc_B_zero_past_face_witness :
  compatible (PyFloat (b64_of_Z 0)) (PyFloat (b64_of_Z 5))
  /\ match calc_B (PyFloat (b64_of_Z 0)) (PyFloat (b64_of_Z 5))
             (decimal 121 2) (decimal 762 2) (decimal 2794 3) "cyl" with
     | Return res =>
         forall k d p, item (PyFloat (b64_of_Z 0)) k = Some d ->
           item (PyFloat (b64_of_Z 5)) k = Some p ->
           fgtb p d = true ->
           ret_item res k = Some (S754_zero false)
     | Raise e =>
         e = OverflowError
         /\ raises_overflow (PyFloat (b64_of_Z 0)) (PyFloat (b64_of_Z 5))
              (decimal 762 2) (decimal 2794 3) = true
     end.
Proof.
  split; [exact I|].
  apply (calc_B_zero_past_face (PyFloat (b64_of_Z 0)) (PyFloat (b64_of_Z 5))).
  exact I.
Defined.



(** C3.  Unsupported shapes: for ['block'], ['ring'] and every other string
    that is not ['cyl'], and for arguments of any kind and shape, the call
    raises nothing and returns the scalar [numpy.nan]; every sample of the
    result is NaN. *)
Theorem calc_B_unsupported_shape_is_nan (dist pos : value float)
    (B_rem mag_radius mag_thick : float) (mag_shape : String.string) :
  mag_shape <> "cyl"%string ->
  calc_B dist pos B_rem mag_radius mag_thick mag_shape
  = Return (Val (PyFloat S754_nan))
  /\ forall k, exists x,
       ret_item (Val (PyFloat S754_nan)) k = Some x /\ is_nan x = true.
Proof.
  intros Hs. split.
  - exact (calc_B_unsupported dist pos B_rem mag_radius mag_thick Hs).
  - intros k. exists S754_nan. split; reflexivity.
Qed.

Lemma calc_B_unsupported_shape_is_nan_witness :
  "ring"%string <> "cyl"%string
  /\ calc_B (NdArray {| shape := [2]; data := [b64_of_Z 3; b64_of_Z 4] |})
       (PyFloat (b64_of_Z 1))
       (decimal 121 2) (decimal 762 2) (decimal 2794 3) "ring"
     = Return (Val (PyFloat S754_nan)).
Proof.
  split; [discriminate|].
  apply (calc_B_unsupported_shape_is_nan
           (NdArray {| shape := [2]; data := [b64_of_Z 3; b64_of_Z 4] |})
           (PyFloat (b64_of_Z 1))
           (decimal 121 2) (decimal 762 2) (decimal 2794 3)
           (mag_shape := "ring"%string)).
  discriminate.
Defined.



(** C9.  The zeroing rule never applies to an unsupported shape: the call
    returns NaN before the comparison [pos > dist] is evaluated, so a sample
    with [pos > dist] is NaN and not zero.  No agreement of the argument
    shapes is needed, as the masking step is not reached. *)
Theorem calc_B_unsupported_shape_not_masked (dist pos : value float)
    (B_rem mag_radius mag_thick : float) (mag_shape : String.string)
    (k : nat) (d p : float) :
  mag_shape <> "cyl"%string ->
  item dist k = Some d -> item pos k = Some p -> fgtb p d = true ->
  exists res,
    calc_B dist pos B_rem mag_radius mag_thick mag_shape = Return res
    /\ ret_item res k = Some S754_nan
    /\ ret_item res k <> Some (S754_zero false).
Proof.
  intros Hs _ _ _. exists (Val (PyFloat S754_nan)). split; [|split].
  - exact (calc_B_unsupported dist pos B_rem mag_radius mag_thick Hs).
  - reflexivity.
  - discriminate.
Qed.

Lemma calc_B_unsupported_shape_not_masked_witness :
  "block"%string <> "cyl"%string
  /\ item (NdArray {| shape := [2]; data := [b64_of_Z 0; b64_of_Z 10] |}) 0
     = Some (b64_of_Z 0)
  /\ item (PyFloat (b64_of_Z 5)) 0 = Some (b64_of_Z 5)
  /\ fgtb (b64_of_Z 5) (b64_of_Z 0) = true
  /\ exists res,
       calc_B (NdArray {| shape := [2]; data := [b64_of_Z 0; b64_of_Z 10] |})
         (PyFloat (b64_of_Z 5))
         (decimal 121 2) (decimal 762 2) (decimal 2794 3) "block"
       = Return res
       /\ ret_item res 0 = Some S754_nan
       /\ ret_item res 0 <> Some (S754_zero false).
Proof.
  split; [discriminate|]. split; [reflexivity|]. split; [reflexivity|].
  split; [reflexivity|].
  apply (calc_B_unsupported_shape_not_masked
           (NdArray {| shape := [2]; data := [b64_of_Z 0; b64_of_Z 10] |})
           (PyFloat (b64_of_Z 5))
           (decimal 121 2) (decimal 762 2) (decimal 2794 3)
           (mag_shape := "block"%string) 0
           (d := b64_of_Z 0) (p := b64_of_Z 5));
    [discriminate | reflexivity | reflexivity | reflexivity].
Defined.



(** The same with the grid built from two axes, [distance] along the first
    and [position] along the second: element [(i, j)] is the scalar call at
    [(distance[i], position[j])]. *)
Corollary calc_B_outer_grid_element (distance position : ndarray float)
    (B_rem mag_radius mag_thick : float) (i j : nat) (d p : float) :
  nth_error (data distance) i = Some d ->
  nth_error (data position) j = Some p ->
  sq_overflows (to_m mag_radius) = false ->
  exists Bv v x,
    calc_B (NdArray (snd (meshgrid position distance)))
           (NdArray (fst (meshgrid position distance)))
           B_rem mag_radius mag_thick "cyl"
    = Return (Val (NdArray Bv))
    /\ calc_B (NpFloat d) (NpFloat p) B_rem mag_radius mag_thick "cyl"
       = Return v
    /\ item2 Bv i j = Some x
    /\ float_of v = Some x.
Proof.
  intros Hd Hp Hr.
  assert (Hi : (i < length (data distance))%nat)
    by (apply nth_error_Some; congruence).
  assert (Hj : (j < length (data position))%nat)
    by (apply nth_error_Some; congruence).
  destruct (calc_B_item2 (snd (meshgrid position distance))
              (fst (meshgrid position distance))
              B_rem mag_radius mag_thick i j (d := d) (p := p) true true)
    as (Bv & v & x & H1 & H2 & _ & H3 & H4).
  - reflexivity.
  - now rewrite item2_meshgrid_snd.
  - now rewrite item2_meshgrid_fst.
  - unfold raises_overflow, scalar. rewrite Hr. reflexivity.
  - exists Bv, v, x. auto.
Qed.

(** C5, as stated, fails: at distance 0 the position 5 is past the face and
    masked to zero, while the position -5 is not masked and receives the
    positive value of the formula. *)
Lemma calc_B_symmetry_counterexample :
  fleb (b64_of_Z 0) (b64_of_Z 0) = true
  /\ calc_B (PyFloat (b64_of_Z 0)) (PyFloat (b64_of_Z 5))
       Script.B_rem Script.mag_radius Script.mag_thick "cyl"
     = Return (PyInt 0)
  /\ calc_B (PyFloat (b64_of_Z 0)) (neg (PyFloat (b64_of_Z 5)))
       Script.B_rem Script.mag_radius Script.mag_thick "cyl"
     = Return (Val (NpFloat (S754_finite false 4762309442942244 (-54))))
  /\ calc_B (PyFloat (b64_of_Z 0)) (PyFloat (b64_of_Z 5))
       Script.B_rem Script.mag_radius Script.mag_thick "cyl"
     <> calc_B (PyFloat (b64_of_Z 0)) (neg (PyFloat (b64_of_Z 5)))
          Script.B_rem Script.mag_radius Script.mag_thick "cyl".
Proof.
  assert (H5 : calc_B (PyFloat (b64_of_Z 0)) (PyFloat (b64_of_Z 5))
                 Script.B_rem Script.mag_radius Script.mag_thick "cyl"
               = Return (PyInt 0)) by (vm_compute; reflexivity).
  assert (Hm5 : calc_B (PyFloat (b64_of_Z 0)) (neg (PyFloat (b64_of_Z 5)))
                  Script.B_rem Script.mag_radius Script.mag_thick "cyl"
                = Return (Val (NpFloat
                    (S754_finite false 4762309442942244 (-54)))))
    by (vm_compute; reflexivity).
  split; [reflexivity|]. split; [exact H5|]. split; [exact Hm5|].
  rewrite H5, Hm5. discriminate.
Qed.

(** C5, amended.  The formula itself is symmetric in the sign of the
    position, and so is [calc_B] wherever [pos] and [-pos] fall on the same
    side of the mask [pos > dist] at every sample (for [dist >= 0]: wherever
    [-dist <= pos <= dist]). *)
Theorem calc_B_symmetric_within_envelope (dist pos : value float)
    (B_rem mag_radius mag_thick : float) :
  compatible dist pos ->
  (forall k d p, item dist k = Some d -> item pos k = Some p ->
                 fgtb (fopp p) d = fgtb p d) ->
  calc_B dist (neg pos) B_rem mag_radius mag_thick "cyl"
  = calc_B dist pos B_rem mag_radius mag_thick "cyl".
Proof. apply calc_B_neg_pos. Qed.

Lemma calc_B_symmetric_within_envelope_witness :
  compatible (PyFloat (b64_of_Z 10)) (PyFloat (b64_of_Z 3))
  /\ (forall k d p, item (PyFloat (b64_of_Z 10)) k = Some d ->
        item (PyFloat (b64_of_Z 3)) k = Some p ->
        fgtb (fopp p) d = fgtb p d)
  /\ calc_B (PyFloat (b64_of_Z 10)) (neg (PyFloat (b64_of_Z 3)))
       Script.B_rem Script.mag_radius Script.mag_thick "cyl"
     = calc_B (PyFloat (b64_of_Z 10)) (PyFloat (b64_of_Z 3))
         Script.B_rem Script.mag_radius Script.mag_thick "cyl".
Proof.
  assert (Hside : forall (k : nat) (d p : float),
             item (PyFloat (b64_of_Z 10)) k = Some d ->
             item (PyFloat (b64_of_Z 3)) k = Some p ->
             fgtb (fopp p) d = fgtb p d).
  { intros k d p Hd Hp. injection Hd as <-. injection Hp as <-. reflexivity. }
  split; [exact I|]. split; [exact Hside|].
  apply (calc_B_symmetric_within_envelope
           (PyFloat (b64_of_Z 10)) (PyFloat (b64_of_Z 3))
           Script.B_rem Script.mag_radius Script.mag_thick I Hside).
Defined.

(* ================================================================== *)
(** ** Facts of exact arithmetic *)

Module ExactFacts.

Import Exact.

Local Open Scope R_scope.

#[export] Instance laws : @ArithLaws xreal arith.
Proof.
  split.
  - simpl. destruct (Req_dec_T 1000 0); [lra | reflexivity].
  - simpl. destruct (Req_dec_T 2 0); [lra | reflexivity].
  - reflexivity.
  - intros [|a] [|b]; simpl; try reflexivity.
    destruct (Rle_dec a b), (Rlt_dec b a); try reflexivity;
      try discriminate; lra.
  - intros [|a] [|b]; simpl; try reflexivity.
    destruct (Req_dec_T a b), (Rlt_dec b a); try reflexivity;
      try discriminate; lra.
  - intros [|a] [|b]; simpl; try reflexivity.
    destruct (Req_dec_T b 0); simpl; [reflexivity|].
    f_equal. field. assumption.
  - intros [|a] [|b]; simpl; try reflexivity.
  - intros [|a] [|b]; simpl; try reflexivity. f_equal. ring.
  - intros [|a] [|b]; simpl; try reflexivity. f_equal. ring.
Qed.

(** No square overflows. *)
Lemma sq_overflows_false (x : xreal) : sq_overflows x = false.
Proof. destruct x; reflexivity. Qed.

Lemma raises_overflow_false (dist pos : value xreal) (r t : xreal) :
  raises_overflow dist pos r t = false.
Proof.
  unfold raises_overflow, py_squares_overflow.
  destruct dist, pos; rewrite !sq_overflows_false; reflexivity.
Qed.

(** In exact arithmetic the evaluator always returns for a cylinder. *)
Lemma calc_B_exact (dist pos : value xreal) (B_rem mag_radius mag_thick : xreal) :
  compatible dist pos ->
  calc_B dist pos B_rem mag_radius mag_thick "cyl"
  = Return (flux dist pos B_rem mag_radius mag_thick).
Proof.
  intros Hc. rewrite (calc_B_cyl _ _ _ _ _ Hc).
  now rewrite raises_overflow_false.
Qed.

(** *** The formula over the reals *)

Lemma sum_squares_nonneg (r x : R) : 0 <= r * r + x * x.
Proof. nra. Qed.

Lemma xterm_cases (r x : R) :
  fdiv (XReal x)
       (fsqrt (fadd (fmul (XReal r) (XReal r)) (fmul (XReal x) (XReal x))))
  = if Req_dec_T (r * r + x * x) 0 then XNan else XReal (ratio r x).
Proof.
  simpl. pose proof (sum_squares_nonneg r x) as Hs.
  destruct (Rlt_dec (r * r + x * x) 0) as [Hlt|_]; [lra|]. simpl.
  destruct (Req_dec_T (R_sqrt.sqrt (r * r + x * x)) 0) as [Hz|Hnz];
    destruct (Req_dec_T (r * r + x * x) 0) as [Hz'|Hnz']; try reflexivity.
  - exfalso. apply Hnz'. now apply sqrt_eq_0.
  - exfalso. apply Hnz. rewrite Hz'. apply sqrt_0.
Qed.

Lemma xterm_real (r x : R) :
  r <> 0 ->
  fdiv (XReal x)
       (fsqrt (fadd (fmul (XReal r) (XReal r)) (fmul (XReal x) (XReal x))))
  = XReal (ratio r x).
Proof.
  intros Hr. rewrite xterm_cases.
  destruct (Req_dec_T (r * r + x * x) 0) as [Hz|_]; [|reflexivity].
  exfalso. apply Hr. nra.
Qed.

Lemma to_m_real (x : R) : to_m (XReal x) = XReal (x / 1000).
Proof.
  unfold to_m. simpl. destruct (Req_dec_T 1000 0); [lra | reflexivity].
Qed.

Lemma half_real (x : R) : fdiv (XReal x) (of_Z 2) = XReal (x / 2).
Proof. simpl. destruct (Req_dec_T 2 0); [lra | reflexivity]. Qed.

Lemma B_formula_real (Br r t d p : R) :
  r <> 0 ->
  B_formula (XReal Br) (XReal r) (XReal t) (XReal d) (XReal p)
  = XReal (B_real Br r t d p).
Proof.
  intros Hr. unfold B_formula.
  change (fadd (XReal d) (XReal p)) with (XReal (d + p)).
  change (fsub (XReal d) (XReal p)) with (XReal (d - p)).
  change (fadd (XReal t) (XReal (d + p))) with (XReal (t + (d + p))).
  change (fadd (XReal t) (XReal (d - p))) with (XReal (t + (d - p))).
  rewrite !(xterm_real _ Hr), half_real. reflexivity.
Qed.

Lemma raw_B_real (d p Br r t : R) :
  r <> 0 ->
  raw_B (XReal d) (XReal p) (XReal Br) (XReal r) (XReal t)
  = XReal (B_real Br (r / 1000) (t / 1000) (d / 1000) (p / 1000)).
Proof.
  intros Hr. unfold raw_B. rewrite !to_m_real.
  apply B_formula_real. lra.
Qed.

(** [u / sqrt(r^2 + u^2)] is strictly increasing in [u]. *)
Lemma ratio_increasing (r a b : R) :
  0 < r -> a < b -> ratio r a < ratio r b.
Proof.
  intros Hr Hab. unfold ratio.
  pose proof (sum_squares_nonneg r a) as Ha0.
  pose proof (sum_squares_nonneg r b) as Hb0.
  assert (HA : 0 < R_sqrt.sqrt (r * r + a * a)) by (apply sqrt_lt_R0; nra).
  assert (HB : 0 < R_sqrt.sqrt (r * r + b * b)) by (apply sqrt_lt_R0; nra).
  pose proof (sqrt_sqrt _ Ha0) as HA2.
  pose proof (sqrt_sqrt _ Hb0) as HB2.
  set (A := R_sqrt.sqrt (r * r + a * a)) in *.
  set (B := R_sqrt.sqrt (r * r + b * b)) in *.
  apply (Rmult_lt_reg_r (A * B)); [nra|].
  replace (a / A * (A * B)) with (a * B) by (field; lra).
  replace (b / B * (A * B)) with (b * A) by (field; lra).
  destruct (Rle_lt_dec 0 a) as [Ha|Ha]; [|destruct (Rle_lt_dec 0 b) as [Hb|Hb]].
  - (* 0 <= a < b *)
    apply Rsqr_incrst_0; try nra. unfold Rsqr.
    replace (a * B * (a * B)) with (a * a * (B * B)) by ring.
    replace (b * A * (b * A)) with (b * b * (A * A)) by ring.
    rewrite HA2, HB2. clear HA2 HB2.
    assert (Hsq : a * a < b * b) by nra.
    assert (Hr2 : 0 < r * r) by nra.
    pose proof (Rmult_lt_compat_l _ _ _ Hr2 Hsq). nra.
  - (* a < 0 <= b *)
    nra.
  - (* a < b < 0 *)
    assert (H : - b * A < - a * B); [|lra].
    apply Rsqr_incrst_0; try nra. unfold Rsqr.
    replace (- b * A * (- b * A)) with (b * b * (A * A)) by ring.
    replace (- a * B * (- a * B)) with (a * a * (B * B)) by ring.
    rewrite HA2, HB2. clear HA2 HB2.
    assert (Hsq : b * b < a * a) by nra.
    assert (Hr2 : 0 < r * r) by nra.
    pose proof (Rmult_lt_compat_l _ _ _ Hr2 Hsq). nra.
Qed.

Lemma B_real_pos (Br r t d p : R) :
  0 < Br -> 0 < r -> 0 < t -> 0 < B_real Br r t d p.
Proof.
  intros HBr Hr Ht. unfold B_real.
  assert (H1 : ratio r (d + p) < ratio r (t + (d + p)))
    by (apply ratio_increasing; lra).
  assert (H2 : ratio r (d - p) < ratio r (t + (d - p)))
    by (apply ratio_increasing; lra).
  nra.
Qed.

(** *** The sampling axis over the reals *)


(** *** Scaling the geometry *)

Section Scaling.

Variable k : R.
Hypothesis k_pos : 0 < k.















End Scaling.

End ExactFacts.

(* ================================================================== *)
(** ** Scale invariance and sign *)

Import Exact ExactFacts.




(** C10, as stated, fails in binary64: with the constants of the module,
    all positive, the formula at distance 1484833 mm and position 0 rounds
    to a negative number, which is returned. *)
Lemma calc_B_sign_counterexample :
  fgtb Script.B_rem (b64_of_Z 0) = true
  /\ fgtb Script.mag_radius (b64_of_Z 0) = true
  /\ fgtb Script.mag_thick (b64_of_Z 0) = true
  /\ calc_B (PyFloat (b64_of_Z 1484833)) (PyFloat (b64_of_Z 0))
       Script.B_rem Script.mag_radius Script.mag_thick "cyl"
     = Return (Val (NpFloat (S754_finite true 5449355549118300 (-105))))
  /\ fgtb (b64_of_Z 0) (S754_finite true 5449355549118300 (-105)) = true.
Proof.
  split; [reflexivity|]. split; [reflexivity|]. split; [reflexivity|].
  split; [vm_compute; reflexivity | reflexivity].
Qed.

(** On the grid the script evaluates, in binary64, every sample past the
    face is the zero of the mask and every other sample is strictly
    positive. *)
Lemma script_grid_sign : Script.grid_sign_ok Script.run = true.
Proof. vm_compute. reflexivity. Qed.

(** C10, amended.  In exact arithmetic, for strictly positive remanence,
    radius and thickness, the call returns, the unmasked formula is strictly
    positive at every real distance and position, and every returned sample
    is the masking zero (where [pos > dist]) or that positive value, hence
    nonnegative.  In binary64 the same holds at each of the 10000 samples the
    script evaluates. *)
Theorem calc_B_nonnegative (Br r t : R) (dist pos : value xreal) :
  (0 < Br)%R -> (0 < r)%R -> (0 < t)%R ->
  compatible dist pos ->
  (exists res,
     calc_B dist pos (XReal Br) (XReal r) (XReal t) "cyl" = Return res
     /\ forall k d p,
          item dist k = Some (XReal d) -> item pos k = Some (XReal p) ->
          exists v w,
            raw_B (XReal d) (XReal p) (XReal Br) (XReal r) (XReal t) = XReal v
            /\ (0 < v)%R
            /\ ret_item res k = Some (XReal w)
            /\ w = (if Rlt_dec d p then 0%R else v)
            /\ (0 <= w)%R)
  /\ Script.grid_sign_ok Script.run = true.
Proof.
  intros HBr Hr Ht Hc. split; [|exact script_grid_sign].
  exists (flux dist pos (XReal Br) (XReal r) (XReal t)).
  split; [now apply calc_B_exact|].
  intros k d p Hd Hp.
  pose (v := B_real Br (r / 1000) (t / 1000) (d / 1000) (p / 1000)).
  assert (Hv : (0 < v)%R) by (apply B_real_pos; lra).
  assert (Hraw : raw_B (XReal d) (XReal p) (XReal Br) (XReal r) (XReal t)
                 = XReal v) by (apply raw_B_real; lra).
  exists v, (if Rlt_dec d p then 0%R else v).
  split; [exact Hraw|]. split; [exact Hv|]. split; [|split].
  - rewrite (ret_item_flux _ _ _ _ _ _ Hd Hp). unfold flux_point.
    rewrite Hraw. simpl. destruct (Rlt_dec d p); reflexivity.
  - reflexivity.
  - destruct (Rlt_dec d p); lra.
Qed.

Lemma calc_B_nonnegative_witness :
  (0 < 1)%R /\ (0 < 7)%R /\ (0 < 3)%R
  /\ compatible (PyFloat (XReal 10)) (PyFloat (XReal 2))
  /\ exists res,
       calc_B (PyFloat (XReal 10)) (PyFloat (XReal 2))
         (XReal 1) (XReal 7) (XReal 3) "cyl" = Return res
       /\ forall k d p,
            item (PyFloat (XReal 10)) k = Some (XReal d) ->
            item (PyFloat (XReal 2)) k = Some (XReal p) ->
            exists v w,
              raw_B (XReal d) (XReal p) (XReal 1) (XReal 7) (XReal 3)
              = XReal v
              /\ (0 < v)%R
              /\ ret_item res k = Some (XReal w)
              /\ w = (if Rlt_dec d p then 0%R else v)
              /\ (0 <= w)%R.
Proof.
  split; [lra|]. split; [lra|]. split; [lra|]. split; [exact I|].
  apply (calc_B_nonnegative (Br := 1) (r := 7) (t := 3)
           (PyFloat (XReal 10)) (PyFloat (XReal 2))); [lra | lra | lra |].
  exact I.
Defined.

(* ================================================================== *)
(** ** The driver *)



(* ================================================================== *)
(** ** The worked examples of the specification, in binary64 *)

(** At the midpoint of touching magnets the module's constants give
    0.41654812548169207 T. *)
Example calc_B_midpoint :
  calc_B (PyFloat (b64_of_Z 0)) (PyFloat (b64_of_Z 0))
    Script.B_rem Script.mag_radius Script.mag_thick "cyl"
  = Return (Val (NpFloat (S754_finite false 7503863930804908 (-54)))).
Proof. vm_compute. reflexivity. Qed.

(** Past the face the [int] 0 is returned, although the formula is not zero
    there. *)
Example calc_B_past_face :
  calc_B (PyFloat (b64_of_Z 0)) (PyFloat (b64_of_Z 5))
    Script.B_rem Script.mag_radius Script.mag_thick "cyl"
  = Return (PyInt 0)
  /\ raw_B (b64_of_Z 0) (b64_of_Z 5)
       Script.B_rem Script.mag_radius Script.mag_thick
     = S754_finite false 4762309442942244 (-54).
Proof. split; vm_compute; reflexivity. Qed.

(** The mask assignment on an array, with a scalar position. *)
Example calc_B_array :
  calc_B (NdArray {| shape := [2]; data := [b64_of_Z 3; b64_of_Z 0] |})
    (PyFloat (b64_of_Z 1)) (b64_of_Z 1) (b64_of_Z 3) (b64_of_Z 3) "cyl"
  = Return (Val (NdArray
      {| shape := [2];
         data := [S754_finite false 7600954945927756 (-55);
                  S754_zero false] |})).
Proof. vm_compute. reflexivity. Qed.

(** A built-in float whose square overflows makes the call raise, where
    the same numpy scalar is only masked. *)
Example calc_B_overflow :
  calc_B (PyFloat (b64_of_Z 0)) (PyFloat (S754_finite false 4503599627370497 500))
    Script.B_rem Script.mag_radius Script.mag_thick "cyl"
  = Raise OverflowError
  /\ calc_B (NpFloat (b64_of_Z 0))
       (NpFloat (S754_finite false 4503599627370497 500))
       Script.B_rem Script.mag_radius Script.mag_thick "cyl"
     = Return (PyInt 0).
Proof. split; vm_compute; reflexivity. Qed.

(* ================================================================== *)
(** * Further properties of the evaluator and the driver *)

(** ** Exceptions and the kind of the result *)

(** For a cylinder and arguments of compatible shapes, [calc_B] raises
    exactly when the square of a built-in float overflows, and then it is
    [OverflowError]: the [TypeError] of the item assignment never escapes,
    and no division raises.  As soon as [dist] or [pos] is a numpy value the
    call returns whatever their magnitudes, provided the square of the
    radius is finite. *)
Theorem calc_B_raises_only_overflow (dist pos : value float)
    (B_rem mag_radius mag_thick : float) :
  compatible dist pos ->
  (calc_B dist pos B_rem mag_radius mag_thick "cyl" = Raise OverflowError
   <-> raises_overflow dist pos mag_radius mag_thick = true)
  /\ (forall e, calc_B dist pos B_rem mag_radius mag_thick "cyl" = Raise e ->
                e = OverflowError)
  /\ (is_builtin dist && is_builtin pos = false ->
      sq_overflows (to_m mag_radius) = false ->
      exists res, calc_B dist pos B_rem mag_radius mag_thick "cyl"
                  = Return res).
Proof.
  intros Hc. rewrite (calc_B_cyl _ _ B_rem mag_radius mag_thick Hc).
  split; [|split].
  - destruct (raises_overflow dist pos mag_radius mag_thick);
      split; intros; try reflexivity; discriminate.
  - intros e.
    destruct (raises_overflow dist pos mag_radius mag_thick);
      intros [=]; congruence.
  - intros Hnp Hr. unfold raises_overflow. rewrite Hr.
    destruct dist, pos; try discriminate Hnp; eexists; reflexivity.
Qed.

Lemma calc_B_raises_only_overflow_witness :
  compatible (NpFloat (S754_infinity false)) (PyFloat S754_nan)
  /\ exists res,
       calc_B (NpFloat (S754_infinity false)) (PyFloat S754_nan)
         Script.B_rem Script.mag_radius Script.mag_thick "cyl"
       = Return res.
Proof.
  split; [exact I|].
  destruct (calc_B_raises_only_overflow
              (NpFloat (S754_infinity false)) (PyFloat S754_nan)
              Script.B_rem Script.mag_radius Script.mag_thick I)
    as (_ & _ & Hret).
  apply Hret; reflexivity.
Defined.



(* ================================================================== *)
(** ** Not-a-number and zero radius *)

Module Binary64Special.

Lemma fadd_nan_r (x : float) : fadd x S754_nan = S754_nan.
Proof. now destruct x. Qed.

Lemma fsub_nan_l (x : float) : fsub S754_nan x = S754_nan.
Proof. reflexivity. Qed.

Lemma fsub_nan_r (x : float) : fsub x S754_nan = S754_nan.
Proof. now destruct x. Qed.

Lemma fmul_nan_r (x : float) : fmul x S754_nan = S754_nan.
Proof. now destruct x. Qed.

Lemma fdiv_nan_l (x : float) : fdiv S754_nan x = S754_nan.
Proof. reflexivity. Qed.

Lemma fgtb_nan (x y : float) :
  is_nan x || is_nan y = true -> fgtb x y = false.
Proof.
  destruct x, y; simpl; try discriminate; try reflexivity.
Qed.

Lemma fgtb_irrefl (x : float) : fgtb x x = false.
Proof.
  destruct x as [s|s| |s m e]; try reflexivity.
  - now destruct s.
  - unfold fgtb; simpl. unfold b64_gtb, SFltb. simpl.
    rewrite Z.compare_refl, Pos.compare_cont_refl. now destruct s.
Qed.

(** The formula is NaN as soon as [d - p] is. *)
Lemma B_formula_nan (Br r t d p : float) :
  fsub d p = S754_nan -> B_formula Br r t d p = S754_nan.
Proof.
  intros Hn. unfold B_formula. rewrite Hn.
  rewrite fadd_nan_r, fdiv_nan_l, fsub_nan_l, fmul_nan_r.
  apply fadd_nan_r.
Qed.

Lemma to_m_nan : @to_m float _ S754_nan = S754_nan.
Proof. reflexivity. Qed.

Lemma raw_B_nan (d p B_rem mag_radius mag_thick : float) :
  is_nan d || is_nan p = true ->
  raw_B d p B_rem mag_radius mag_thick = S754_nan.
Proof.
  intros Hn. unfold raw_B. apply B_formula_nan.
  destruct d; try (rewrite to_m_nan; reflexivity).
  all: destruct p; simpl in Hn; try discriminate Hn; rewrite to_m_nan;
       apply fsub_nan_r.
Qed.

(** [x - x] is [+0.0], or NaN when [x] is not finite. *)
Lemma fsub_diag (x : float) :
  fsub x x = S754_zero false \/ fsub x x = S754_nan.
Proof.
  destruct x as [s|s| |s m e].
  - left. now destruct s.
  - right. now destruct s.
  - right. reflexivity.
  - left. simpl. rewrite Z.sub_diag. reflexivity.
Qed.

(** With a zero radius the ratio at [+0.0] is [0/0]. *)
Lemma ratio_zero_radius (s : bool) :
  fdiv (S754_zero false)
       (fsqrt (fadd (fmul (to_m (S754_zero s)) (to_m (S754_zero s)))
                    (fmul (S754_zero false) (S754_zero false))))
  = S754_nan.
Proof. now destruct s. Qed.

Lemma raw_B_zero_radius_on_face (d B_rem mag_thick : float) (s : bool) :
  raw_B d d B_rem (S754_zero s) mag_thick = S754_nan.
Proof.
  unfold raw_B. destruct (fsub_diag (to_m d)) as [Hz|Hn].
  - unfold B_formula. rewrite Hz, ratio_zero_radius.
    rewrite fsub_nan_r, fmul_nan_r. apply fadd_nan_r.
  - now apply B_formula_nan.
Qed.

End Binary64Special.

Import Binary64Special.

(** A NaN distance or position is never masked: whenever a call for a
    cylinder returns, a sample whose distance or position is NaN is NaN, not
    the zero of the mask, because every comparison with NaN is false. *)
Theorem calc_B_nan_sample (dist pos : value float)
    (B_rem mag_radius mag_thick : float) (res : retval float)
    (k : nat) (d p : float) :
  compatible dist pos ->
  calc_B dist pos B_rem mag_radius mag_thick "cyl" = Return res ->
  item dist k = Some d -> item pos k = Some p ->
  is_nan d || is_nan p = true ->
  ret_item res k = Some S754_nan.
Proof.
  intros Hc Hres Hd Hp Hn.
  pose proof (calc_B_items dist pos B_rem mag_radius mag_thick Hc) as Hi.
  rewrite Hres in Hi. rewrite (Hi k d p Hd Hp). unfold flux_point.
  rewrite fgtb_nan by (now rewrite orb_comm).
  now rewrite raw_B_nan.
Qed.

Lemma calc_B_nan_sample_witness :
  compatible (NdArray (array1 [b64_of_Z 1; S754_nan])) (PyFloat (b64_of_Z 5))
  /\ calc_B (NdArray (array1 [b64_of_Z 1; S754_nan])) (PyFloat (b64_of_Z 5))
       (b64_of_Z 1) (b64_of_Z 3) (b64_of_Z 3) "cyl"
     = Return (Val (NdArray (array1 [S754_zero false; S754_nan])))
  /\ item (NdArray (array1 [b64_of_Z 1; S754_nan])) 1 = Some S754_nan
  /\ item (PyFloat (b64_of_Z 5)) 1 = Some (b64_of_Z 5)
  /\ is_nan S754_nan || is_nan (b64_of_Z 5) = true
  /\ ret_item (Val (NdArray (array1 [S754_zero false; S754_nan]))) 1
     = Some S754_nan.
Proof.
  assert (Hcall : calc_B (NdArray (array1 [b64_of_Z 1; S754_nan]))
                    (PyFloat (b64_of_Z 5))
                    (b64_of_Z 1) (b64_of_Z 3) (b64_of_Z 3) "cyl"
                  = Return (Val (NdArray
                      (array1 [S754_zero false; S754_nan]))))
    by (vm_compute; reflexivity).
  split; [exact I|]. split; [exact Hcall|]. split; [reflexivity|].
  split; [reflexivity|]. split; [reflexivity|].
  exact (calc_B_nan_sample (NdArray (array1 [b64_of_Z 1; S754_nan]))
           (PyFloat (b64_of_Z 5)) (b64_of_Z 1) (b64_of_Z 3) (b64_of_Z 3)
           1 I Hcall eq_refl eq_refl eq_refl).
Defined.

(** A zero radius on the face: with [mag_radius] zero and [pos] the same
    number as [dist], the last ratio of the formula is [0/0] (or involves
    [inf - inf]), numpy divides without raising, and the scalar call
    returns NaN: there is no [ZeroDivisionError], for built-in floats
    either. *)
Theorem calc_B_zero_radius_on_face (np_d np_p s : bool)
    (d B_rem mag_thick : float) :
  raises_overflow (scalar np_d d) (scalar np_p d) (S754_zero s) mag_thick
  = false ->
  calc_B (scalar np_d d) (scalar np_p d) B_rem (S754_zero s) mag_thick "cyl"
  = Return (Val (NpFloat S754_nan)).
Proof.
  intros Hov.
  rewrite (calc_B_cyl (scalar np_d d) (scalar np_p d) B_rem (S754_zero s)
             mag_thick) by (now destruct np_d, np_p).
  rewrite Hov. unfold flux.
  destruct np_d, np_p; cbv beta iota zeta delta [scalar];
    now rewrite fgtb_irrefl, raw_B_zero_radius_on_face.
Qed.

Lemma calc_B_zero_radius_on_face_witness :
  raises_overflow (scalar false (b64_of_Z 0)) (scalar false (b64_of_Z 0))
    (S754_zero false) Script.mag_thick = false
  /\ calc_B (scalar false (b64_of_Z 0)) (scalar false (b64_of_Z 0))
       Script.B_rem (S754_zero false) Script.mag_thick "cyl"
     = Return (Val (NpFloat S754_nan)).
Proof.
  split; [reflexivity|].
  apply (calc_B_zero_radius_on_face false false false (b64_of_Z 0)
           Script.B_rem Script.mag_thick).
  reflexivity.
Defined.

(* ================================================================== *)
(** ** Vectorization: broadcasting and evaluation in pieces *)

Section VectorFacts.

Context {F : Type} `{ArithLaws F}.

Lemma zip_with_app {A B C : Type} (f : A -> B -> C) (l1 l1' : list A)
    (l2 l2' : list B) :
  length l1 = length l2 ->
  zip_with f (l1 ++ l1') (l2 ++ l2') = zip_with f l1 l2 ++ zip_with f l1' l2'.
Proof.
  revert l2. induction l1 as [|x l1 IH]; intros [|y l2] Hlen;
    try discriminate; simpl; [reflexivity|].
  f_equal. apply IH. now injection Hlen.
Qed.

Lemma zip_with_repeat_r {A B C : Type} (f : A -> B -> C) (l : list A) (y : B) :
  zip_with f l (repeat y (length l)) = map (fun x => f x y) l.
Proof. induction l as [|x l IH]; simpl; [reflexivity | now rewrite IH]. Qed.

Lemma zip_with_repeat_l {A B C : Type} (f : A -> B -> C) (x : A) (l : list B) :
  zip_with f (repeat x (length l)) l = map (f x) l.
Proof. induction l as [|y l IH]; simpl; [reflexivity | now rewrite IH]. Qed.

(** A scalar argument acts as the array filled with it. *)
Lemma calc_B_broadcast_pos (a : ndarray F) (numpy : bool) (p : F)
    (B_rem mag_radius mag_thick : F) :
  calc_B (NdArray a) (scalar numpy p) B_rem mag_radius mag_thick "cyl"
  = calc_B (NdArray a) (NdArray (full_like a p))
      B_rem mag_radius mag_thick "cyl".
Proof.
  rewrite (calc_B_cyl (NdArray a) (scalar numpy p))
    by (now destruct numpy).
  rewrite (calc_B_cyl (NdArray a) (NdArray (full_like a p)))
    by reflexivity.
  unfold raises_overflow, flux, full_like, map_array.
  destruct numpy; cbv beta iota zeta delta [scalar shape data];
    now rewrite zip_with_repeat_r.
Qed.

Lemma calc_B_broadcast_dist (b : ndarray F) (numpy : bool) (d : F)
    (B_rem mag_radius mag_thick : F) :
  calc_B (scalar numpy d) (NdArray b) B_rem mag_radius mag_thick "cyl"
  = calc_B (NdArray (full_like b d)) (NdArray b)
      B_rem mag_radius mag_thick "cyl".
Proof.
  rewrite (calc_B_cyl (scalar numpy d) (NdArray b))
    by (now destruct numpy).
  rewrite (calc_B_cyl (NdArray (full_like b d)) (NdArray b))
    by reflexivity.
  unfold raises_overflow, flux, full_like, map_array.
  destruct numpy; cbv beta iota zeta delta [scalar shape data];
    now rewrite zip_with_repeat_l.
Qed.

(** Evaluating two pieces and joining the results is evaluating the joined
    arrays. *)
Lemma calc_B_app (a1 a2 b1 b2 : list F) (B_rem mag_radius mag_thick : F) :
  length a1 = length b1 -> length a2 = length b2 ->
  sq_overflows (to_m mag_radius) = false ->
  exists o1 o2,
    calc_B (NdArray (array1 a1)) (NdArray (array1 b1))
      B_rem mag_radius mag_thick "cyl"
    = Return (Val (NdArray (array1 o1)))
    /\ calc_B (NdArray (array1 a2)) (NdArray (array1 b2))
         B_rem mag_radius mag_thick "cyl"
       = Return (Val (NdArray (array1 o2)))
    /\ calc_B (NdArray (array1 (a1 ++ a2))) (NdArray (array1 (b1 ++ b2)))
         B_rem mag_radius mag_thick "cyl"
       = Return (Val (NdArray (array1 (o1 ++ o2))))
    /\ length o1 = length a1 /\ length o2 = length a2.
Proof.
  intros H1 H2 Hr.
  set (point := flux_point B_rem mag_radius mag_thick).
  exists (zip_with point a1 b1), (zip_with point a2 b2).
  assert (Hl1 : length (zip_with point a1 b1) = length a1)
    by (rewrite length_zip_with, <- H1; apply Nat.min_id).
  assert (Hl2 : length (zip_with point a2 b2) = length a2)
    by (rewrite length_zip_with, <- H2; apply Nat.min_id).
  rewrite !calc_B_cyl
    by (unfold compatible, array1; simpl; rewrite ?length_app; congruence).
  unfold raises_overflow. rewrite Hr. cbv beta iota delta [orb].
  unfold flux, array1. cbv beta iota zeta delta [shape data]. fold point.
  rewrite (zip_with_app point a1 a2 b1 b2 H1).
  rewrite !length_app, !Hl1, !Hl2.
  repeat split; reflexivity.
Qed.



End VectorFacts.

(** A scalar argument is broadcast: passing a scalar position (or
    distance) with an array gives exactly what passing the array of the
    same shape filled with that scalar gives, exception included. *)
Theorem calc_B_scalar_is_constant_array (a : ndarray float) (numpy : bool)
    (x B_rem mag_radius mag_thick : float) :
  calc_B (NdArray a) (scalar numpy x) B_rem mag_radius mag_thick "cyl"
  = calc_B (NdArray a) (NdArray (full_like a x))
      B_rem mag_radius mag_thick "cyl"
  /\ calc_B (scalar numpy x) (NdArray a) B_rem mag_radius mag_thick "cyl"
     = calc_B (NdArray (full_like a x)) (NdArray a)
         B_rem mag_radius mag_thick "cyl".
Proof.
  split; [apply calc_B_broadcast_pos | apply calc_B_broadcast_dist].
Qed.

(** Evaluation in pieces: for one-dimensional arrays, evaluating two
    chunks separately and concatenating the results gives the array that
    evaluating the concatenated arguments gives. *)
Theorem calc_B_concatenation (a1 a2 b1 b2 : list float)
    (B_rem mag_radius mag_thick : float) :
  length a1 = length b1 -> length a2 = length b2 ->
  sq_overflows (to_m mag_radius) = false ->
  exists o1 o2,
    calc_B (NdArray (array1 a1)) (NdArray (array1 b1))
      B_rem mag_radius mag_thick "cyl"
    = Return (Val (NdArray (array1 o1)))
    /\ calc_B (NdArray (array1 a2)) (NdArray (array1 b2))
         B_rem mag_radius mag_thick "cyl"
       = Return (Val (NdArray (array1 o2)))
    /\ calc_B (NdArray (array1 (a1 ++ a2))) (NdArray (array1 (b1 ++ b2)))
         B_rem mag_radius mag_thick "cyl"
       = Return (Val (NdArray (array1 (o1 ++ o2))))
    /\ length o1 = length a1 /\ length o2 = length a2.
Proof. apply calc_B_app. Qed.

Lemma calc_B_concatenation_witness :
  length [b64_of_Z 0; b64_of_Z 5] = length [b64_of_Z 1; b64_of_Z 2]
  /\ length [b64_of_Z 7] = length [b64_of_Z 3]
  /\ sq_overflows (to_m Script.mag_radius) = false
  /\ exists o1 o2,
       calc_B (NdArray (array1 [b64_of_Z 0; b64_of_Z 5]))
         (NdArray (array1 [b64_of_Z 1; b64_of_Z 2]))
         Script.B_rem Script.mag_radius Script.mag_thick "cyl"
       = Return (Val (NdArray (array1 o1)))
       /\ calc_B (NdArray (array1 [b64_of_Z 7]))
            (NdArray (array1 [b64_of_Z 3]))
            Script.B_rem Script.mag_radius Script.mag_thick "cyl"
          = Return (Val (NdArray (array1 o2)))
       /\ calc_B (NdArray (array1 ([b64_of_Z 0; b64_of_Z 5] ++ [b64_of_Z 7])))
            (NdArray (array1 ([b64_of_Z 1; b64_of_Z 2] ++ [b64_of_Z 3])))
            Script.B_rem Script.mag_radius Script.mag_thick "cyl"
          = Return (Val (NdArray (array1 (o1 ++ o2))))
       /\ length o1 = length [b64_of_Z 0; b64_of_Z 5]
       /\ length o2 = length [b64_of_Z 7].
Proof.
  split; [reflexivity|]. split; [reflexivity|]. split; [reflexivity|].
  apply (calc_B_concatenation
           [b64_of_Z 0; b64_of_Z 5] [b64_of_Z 7]
           [b64_of_Z 1; b64_of_Z 2] [b64_of_Z 3]
           Script.B_rem Script.mag_radius Script.mag_thick);
    reflexivity.
Defined.

(* ================================================================== *)
(** ** The plotted surface *)





(* ================================================================== *)
(** ** Bounds and degenerate magnets *)

Module ExactBounds.

Local Open Scope R_scope.




End ExactBounds.



Module Binary64Degenerate.

Lemma to_m_zero (s : bool) : @to_m float _ (S754_zero s) = S754_zero s.
Proof. now destruct s. Qed.

Lemma half_zero (s : bool) :
  fdiv (S754_zero s : float) (of_Z 2) = S754_zero s.
Proof. now destruct s. Qed.

Lemma zero_or_nan_fsub_diag (x : float) : zero_or_nan (fsub x x) = true.
Proof. destruct (fsub_diag x) as [-> | ->]; reflexivity. Qed.

Lemma zero_or_nan_fmul (c b : float) :
  zero_or_nan b = true -> zero_or_nan (fmul c b) = true.
Proof. destruct c, b; simpl; try discriminate; reflexivity. Qed.

Lemma zero_or_nan_fmul_zero (s : bool) (b : float) :
  zero_or_nan (fmul (S754_zero s) b) = true.
Proof. destruct b; reflexivity. Qed.

Lemma zero_or_nan_fadd (a b : float) :
  zero_or_nan a = true -> zero_or_nan b = true ->
  zero_or_nan (fadd a b) = true.
Proof.
  destruct a as [sa| | |], b as [sb| | |]; simpl; try discriminate;
    try reflexivity.
  now destruct sa, sb.
Qed.

(** With a zero thickness the two ratios of a bracket cancel. *)
Lemma bracket_zero_thickness (s : bool) (R y : float) :
  zero_or_nan
    (fsub (fdiv (fadd (S754_zero s) y)
                (fsqrt (fadd R (fmul (fadd (S754_zero s) y)
                                     (fadd (S754_zero s) y)))))
          (fdiv y (fsqrt (fadd R (fmul y y)))))
  = true.
Proof.
  destruct y as [s'|s'| |s' m e].
  - destruct s, s'; simpl;
      match goal with
      | |- context [SFsqrt ?pr ?em ?a] =>
          generalize (SFsqrt pr em a); intros S
      end;
      destruct S as [z|z| |z mz ez]; try destruct z; reflexivity.
  - change (fadd (S754_zero s : float) (S754_infinity s'))
      with (S754_infinity s' : float).
    apply zero_or_nan_fsub_diag.
  - change (fadd (S754_zero s : float) S754_nan) with (S754_nan : float).
    apply zero_or_nan_fsub_diag.
  - change (fadd (S754_zero s : float) (S754_finite s' m e))
      with (S754_finite s' m e : float).
    apply zero_or_nan_fsub_diag.
Qed.

Lemma raw_B_degenerate (d p B_rem mag_radius mag_thick : float) :
  is_zero B_rem || is_zero mag_thick = true ->
  zero_or_nan (raw_B d p B_rem mag_radius mag_thick) = true.
Proof.
  intros Hz. unfold raw_B, B_formula.
  destruct B_rem as [s| | |]; simpl in Hz.
  - rewrite half_zero.
    apply zero_or_nan_fadd; apply zero_or_nan_fmul_zero.
  - destruct mag_thick as [s'| | |]; try discriminate Hz.
    rewrite to_m_zero.
    apply zero_or_nan_fadd; apply zero_or_nan_fmul;
      apply bracket_zero_thickness.
  - destruct mag_thick as [s'| | |]; try discriminate Hz.
    rewrite to_m_zero.
    apply zero_or_nan_fadd; apply zero_or_nan_fmul;
      apply bracket_zero_thickness.
  - destruct mag_thick as [s'| | |]; try discriminate Hz.
    rewrite to_m_zero.
    apply zero_or_nan_fadd; apply zero_or_nan_fmul;
      apply bracket_zero_thickness.
Qed.

End Binary64Degenerate.

(** A magnet without remanence or without thickness produces no flux:
    whenever the call for a cylinder returns, every sample is a zero or NaN
    (NaN where the formula meets [0/0], an infinity or NaN), never a
    nonzero number. *)
Theorem calc_B_degenerate_magnet (dist pos : value float)
    (B_rem mag_radius mag_thick : float) (res : retval float)
    (k : nat) (d p : float) :
  is_zero B_rem || is_zero mag_thick = true ->
  compatible dist pos ->
  calc_B dist pos B_rem mag_radius mag_thick "cyl" = Return res ->
  item dist k = Some d -> item pos k = Some p ->
  exists b, ret_item res k = Some b /\ zero_or_nan b = true.
Proof.
  intros Hz Hc Hres Hd Hp.
  pose proof (calc_B_items dist pos B_rem mag_radius mag_thick Hc) as Hi.
  rewrite Hres in Hi. rewrite (Hi k d p Hd Hp).
  eexists. split; [reflexivity|]. unfold flux_point.
  destruct (fgtb p d); [reflexivity|].
  now apply Binary64Degenerate.raw_B_degenerate.
Qed.

Lemma calc_B_degenerate_magnet_witness :
  is_zero Script.B_rem || is_zero (S754_zero false) = true
  /\ compatible (PyFloat (b64_of_Z 10)) (PyFloat (b64_of_Z 3))
  /\ calc_B (PyFloat (b64_of_Z 10)) (PyFloat (b64_of_Z 3))
       Script.B_rem Script.mag_radius (S754_zero false) "cyl"
     = Return (Val (NpFloat (S754_zero false)))
  /\ item (PyFloat (b64_of_Z 10)) 0 = Some (b64_of_Z 10)
  /\ item (PyFloat (b64_of_Z 3)) 0 = Some (b64_of_Z 3)
  /\ exists b, ret_item (Val (NpFloat (S754_zero false))) 0 = Some b
               /\ zero_or_nan b = true.
Proof.
  assert (Hcall : calc_B (PyFloat (b64_of_Z 10)) (PyFloat (b64_of_Z 3))
                    Script.B_rem Script.mag_radius (S754_zero false) "cyl"
                  = Return (Val (NpFloat (S754_zero false))))
    by (vm_compute; reflexivity).
  split; [reflexivity|]. split; [exact I|]. split; [exact Hcall|].
  split; [reflexivity|]. split; [reflexivity|].
  exact (calc_B_degenerate_magnet
           (PyFloat (b64_of_Z 10)) (PyFloat (b64_of_Z 3))
           Script.B_rem Script.mag_radius (S754_zero false)
           0 eq_refl I Hcall eq_refl eq_refl).
Defined.
